(** * Watchdog library of EasyMSP (msp430x2xx/watchdog.c)

    A shallow embedding of [library/msp430x2xx/watchdog.c]: the nine
    operations on the password-protected watchdog control register
    [WDTCTL], the interrupt enable register [IE1] and the file-scope
    callback slot [watchdogFunctionToCall], followed by the properties
    established about them. *)

From Stdlib Require Import ZArith List Bool Lia.
Import ListNotations.
Local Open Scope Z_scope.

(** ** Device header *)

(** Modelled from the spec: the device header of the MSP430x2xx family,
    which [watchdog.c] includes for the names below, is not part of the
    sources.  The spec fixes the layout: a password in the upper byte of
    every write, and a lower byte holding the hold bit, the NMI edge and
    NMI select bits, the timer-mode-select bit, the count-clear bit, the
    clock-source-select bit and a 2-bit interval-select field.  The values
    are the ones of that family's header. *)
Definition WDTPW    : Z := 0x5A00.
Definition WDTHOLD  : Z := 0x0080.
Definition WDTNMIES : Z := 0x0040.
Definition WDTNMI   : Z := 0x0020.
Definition WDTTMSEL : Z := 0x0010.
Definition WDTCNTCL : Z := 0x0008.
Definition WDTSSEL  : Z := 0x0004.
Definition WDTIS1   : Z := 0x0002.
Definition WDTIS0   : Z := 0x0001.

(** Interval-select encodings: [WDTIS_n] is the 2-bit field holding [n]. *)
Definition WDTIS_0 : Z := 0.
Definition WDTIS_1 : Z := 1.
Definition WDTIS_2 : Z := 2.
Definition WDTIS_3 : Z := 3.

(** Watchdog interrupt enable, a bit of [IE1]. *)
Definition WDTIE : Z := 0x01.

(** The whole interval-select field. *)
Definition WDTIS : Z := Z.lor WDTIS1 WDTIS0.

(** ** C integer conversions *)

(** [(unsigned char) x] and the store into a 16-bit object. *)
Definition uchar (x : Z) : Z := Z.land x 0xFF.
Definition ushort (x : Z) : Z := Z.land x 0xFFFF.

(** ** Machine state *)

(** A function pointer is a code address. *)
Definition funptr := Z.

(** What the program does to the outside, in program order. *)
Inductive event : Type :=
| Write_WDTCTL (v : Z)
| Write_IE1 (v : Z)
| Store_callback (f : funptr)
| Call (f : funptr).

Record machine : Type := mkMachine {
  WDTCTL : Z;
  IE1 : Z;
  watchdogFunctionToCall : funptr;
  bus : list event
}.

(** The registers without the history. *)
Definition regs (s : machine) : Z * Z * funptr :=
  (WDTCTL s, IE1 s, watchdogFunctionToCall s).

(** ** Statements with early return *)

(** A statement either falls through with a value or leaves the
    enclosing function through [return]. *)
Inductive outcome (R A : Type) : Type :=
| Next (a : A)
| Returned (r : R).
Arguments Next {R A} a.
Arguments Returned {R A} r.

Definition stmt (R A : Type) : Type := machine -> outcome R A * machine.

Definition ret {R A} (a : A) : stmt R A := fun s => (Next a, s).

Definition return_ {R A} (r : R) : stmt R A := fun s => (Returned r, s).

Definition bind {R A B} (m : stmt R A) (k : A -> stmt R B) : stmt R B :=
  fun s =>
    match m s with
    | (Next a, s') => k a s'
    | (Returned r, s') => (Returned r, s')
    end.

Declare Scope stmt_scope.
Delimit Scope stmt_scope with stmt.
Notation "x <- m ;; k" := (bind m (fun x => k))
  (at level 61, m at next level, right associativity) : stmt_scope.
Notation "m ;; k" := (bind m (fun _ => k))
  (at level 61, right associativity) : stmt_scope.
Local Open Scope stmt_scope.

(** Calling a function body: the value it returns and the state it
    leaves. *)
Definition call {R} (body : stmt R R) (s : machine) : R * machine :=
  match body s with
  | (Next r, s') => (r, s')
  | (Returned r, s') => (r, s')
  end.

(** ** Register accesses *)

(** The state after a write: the cell takes the value written, as a
    plain 16-bit backing store does, and the write shows on the bus. *)
Definition set_WDTCTL (v : Z) (s : machine) : machine :=
  {| WDTCTL := v;
     IE1 := IE1 s;
     watchdogFunctionToCall := watchdogFunctionToCall s;
     bus := bus s ++ [Write_WDTCTL v] |}.

Definition set_IE1 (v : Z) (s : machine) : machine :=
  {| WDTCTL := WDTCTL s;
     IE1 := v;
     watchdogFunctionToCall := watchdogFunctionToCall s;
     bus := bus s ++ [Write_IE1 v] |}.

Definition set_callback (f : funptr) (s : machine) : machine :=
  {| WDTCTL := WDTCTL s;
     IE1 := IE1 s;
     watchdogFunctionToCall := f;
     bus := bus s ++ [Store_callback f] |}.

Definition called (f : funptr) (s : machine) : machine :=
  {| WDTCTL := WDTCTL s;
     IE1 := IE1 s;
     watchdogFunctionToCall := watchdogFunctionToCall s;
     bus := bus s ++ [Call f] |}.

(** [WDTCTL] is a 16-bit register, [IE1] an 8-bit one. *)
Definition load_WDTCTL {R} : stmt R Z := fun s => (Next (WDTCTL s), s).

Definition store_WDTCTL {R} (v : Z) : stmt R unit :=
  fun s => (Next tt, set_WDTCTL (ushort v) s).

Definition load_IE1 {R} : stmt R Z := fun s => (Next (IE1 s), s).

Definition store_IE1 {R} (v : Z) : stmt R unit :=
  fun s => (Next tt, set_IE1 (uchar v) s).

Definition load_watchdogFunctionToCall {R} : stmt R funptr :=
  fun s => (Next (watchdogFunctionToCall s), s).

Definition store_watchdogFunctionToCall {R} (f : funptr) : stmt R unit :=
  fun s => (Next tt, set_callback f s).

Definition call_funptr {R} (f : funptr) : stmt R unit :=
  fun s => (Next tt, called f s).

(** ** The library *)

Section Library.

(** The library's own header is not part of the sources either: the
    identifiers it gives to the clock sources, the reset pin mode and the
    edge are taken as they come, and so is the build option that leaves
    the interrupt service routine out. *)
Variables ACLK SMCLK NMI FALLING : Z.
Variable NO_WDT_ISR : bool.

Definition detectWatchdog : stmt bool bool :=
  w <- load_WDTCTL ;;
  let tempwdt := uchar w in
  store_WDTCTL (WDTPW + Z.lor tempwdt WDTHOLD) ;;
  w' <- load_WDTCTL ;;
  if uchar w' >? 0 then return_ true else return_ false.

Definition holdWatchdog : stmt unit unit :=
  w <- load_WDTCTL ;;
  let tempwdt := ushort (uchar w) in
  store_WDTCTL (WDTPW + Z.lor tempwdt WDTHOLD) ;;
  return_ tt.

Definition startWatchdog (clocksource divider : Z) : stmt Z Z :=
  store_WDTCTL (WDTPW + WDTHOLD) ;;
  let watchdogbits := Z.lor WDTHOLD WDTCNTCL in
  watchdogbits <-
    (if clocksource =? ACLK then ret (Z.lor watchdogbits WDTSSEL)
     else if negb (clocksource =? SMCLK) then return_ 1
     else ret watchdogbits) ;;
  watchdogbits <-
    (if divider =? 64 then ret (Z.lor watchdogbits WDTIS_3)
     else if divider =? 512 then ret (Z.lor watchdogbits WDTIS_2)
     else if divider =? 8912 then ret (Z.lor watchdogbits WDTIS_1)
     else if divider =? 32768 then ret watchdogbits
     else return_ 2) ;;
  store_WDTCTL (Z.lor WDTPW watchdogbits) ;;
  return_ 0.

Definition resetWatchdog : stmt unit unit :=
  store_WDTCTL WDTPW ;;
  return_ tt.

Definition clearWatchdog : stmt unit unit :=
  w <- load_WDTCTL ;;
  store_WDTCTL (WDTPW + Z.lor (uchar w) WDTCNTCL) ;;
  return_ tt.

Definition holdWatchdogTimer : stmt unit unit :=
  w <- load_WDTCTL ;;
  store_WDTCTL (WDTPW + Z.lor (uchar w) WDTHOLD) ;;
  return_ tt.

Definition startWatchdogTimer (clocksource divider : Z) (function : funptr)
  : stmt Z Z :=
  store_WDTCTL (WDTPW + WDTHOLD) ;;
  let watchdogbits := Z.lor WDTTMSEL WDTCNTCL in
  watchdogbits <-
    (if clocksource =? ACLK then ret (Z.lor watchdogbits WDTSSEL)
     else if negb (clocksource =? SMCLK) then return_ 1
     else ret watchdogbits) ;;
  watchdogbits <-
    (if divider =? 64 then ret (Z.lor watchdogbits WDTIS_3)
     else if divider =? 512 then ret (Z.lor watchdogbits WDTIS_2)
     else if divider =? 8912 then ret (Z.lor watchdogbits WDTIS_1)
     else if divider =? 32768 then ret watchdogbits
     else return_ 2) ;;
  ie <- load_IE1 ;;
  store_IE1 (Z.lor ie WDTIE) ;;
  (if NO_WDT_ISR then ret tt
   else store_watchdogFunctionToCall function) ;;
  store_WDTCTL (Z.lor WDTPW watchdogbits) ;;
  return_ 0.

Definition resetWatchdogTimer : stmt unit unit :=
  w <- load_WDTCTL ;;
  store_WDTCTL (WDTPW + Z.lor (uchar w) WDTTMSEL) ;;
  return_ tt.

Definition resetPinMode (mode edge : Z) : stmt unit unit :=
  (if mode =? NMI
   then w <- load_WDTCTL ;;
        store_WDTCTL (WDTPW + Z.lor (uchar w) WDTNMI)
   else w <- load_WDTCTL ;;
        store_WDTCTL (WDTPW + Z.land (uchar w) (Z.lnot WDTNMI))) ;;
  (if edge =? FALLING
   then w <- load_WDTCTL ;;
        store_WDTCTL (WDTPW + Z.lor (uchar w) WDTNMIES)
   else w <- load_WDTCTL ;;
        store_WDTCTL (WDTPW + Z.land (uchar w) (Z.lnot WDTNMIES))) ;;
  return_ tt.

(** The interrupt service routine bound to the watchdog vector; it is
    compiled out together with the callback store. *)
Definition watchdog_timer_isr : stmt unit unit :=
  if NO_WDT_ISR then ret tt
  else f <- load_watchdogFunctionToCall ;; call_funptr f.

(** ** Programs over the library *)

(** One use of the library: a call of one of its functions, or the
    watchdog interrupt being served. *)
Inductive operation : Type :=
| DetectWatchdog
| HoldWatchdog
| StartWatchdog (clocksource divider : Z)
| ResetWatchdog
| ClearWatchdog
| HoldWatchdogTimer
| StartWatchdogTimer (clocksource divider : Z) (function : funptr)
| ResetWatchdogTimer
| ResetPinMode (mode edge : Z)
| WatchdogTimerIsr.

Definition exec (o : operation) (s : machine) : machine :=
  match o with
  | DetectWatchdog => snd (call detectWatchdog s)
  | HoldWatchdog => snd (call holdWatchdog s)
  | StartWatchdog c d => snd (call (startWatchdog c d) s)
  | ResetWatchdog => snd (call resetWatchdog s)
  | ClearWatchdog => snd (call clearWatchdog s)
  | HoldWatchdogTimer => snd (call holdWatchdogTimer s)
  | StartWatchdogTimer c d f => snd (call (startWatchdogTimer c d f) s)
  | ResetWatchdogTimer => snd (call resetWatchdogTimer s)
  | ResetPinMode m e => snd (call (resetPinMode m e) s)
  | WatchdogTimerIsr => snd (call watchdog_timer_isr s)
  end.

Definition run (p : list operation) (s : machine) : machine :=
  fold_left (fun s o => exec o s) p s.

End Library.

(** ** Vocabulary of the properties *)

(** The values written to [WDTCTL] among some events, oldest first. *)
Definition wdtctl_writes (l : list event) : list Z :=
  flat_map (fun e => match e with Write_WDTCTL v => [v] | _ => [] end) l.

(** [is_byte b]: nothing of [b] lies above bit 7. *)
Definition is_byte (b : Z) : Prop := uchar b = b.

(** The written value carries the password in its upper byte. *)
Definition has_password (v : Z) : Prop := Z.shiftr v 8 = Z.shiftr WDTPW 8.

(** The low byte of the register without the flags of [m]. *)
Definition low_except (m : Z) : Z := Z.land 0xFF (Z.lnot m).

(** [s'] continues [s]: its bus is the one of [s] followed by [new]. *)
Definition continues (s : machine) (new : list event) (s' : machine) : Prop :=
  bus s' = bus s ++ new.

(** The register contents right after a power-up clear: the watchdog
    runs with all of its low byte clear and reads back 0x69 in its upper
    byte; nothing has been written yet. *)
Definition power_up : machine :=
  {| WDTCTL := 0x6900; IE1 := 0; watchdogFunctionToCall := 0; bus := [] |}.

(** Everything written to [WDTCTL] between [s] and [s'] carries the
    password. *)
Definition password_kept (s s' : machine) : Prop :=
  exists new, continues s new s' /\ Forall has_password (wdtctl_writes new).

(** The contract of the interval-timer start as the design document words
    it, at one input: with a valid clock source and one of the four
    documented dividers the call succeeds, unmasks the watchdog
    interrupt, commits the timer mode, and has stored the callback
    before the committing write, which is the last thing it does. *)
Definition startWatchdogTimer_documented
  (ACLK SMCLK : Z) (NO_WDT_ISR : bool)
  (c d : Z) (f : funptr) (s : machine) : Prop :=
  c = ACLK \/ c = SMCLK ->
  In d [64; 512; 8192; 32768] ->
  let r := fst (call (startWatchdogTimer ACLK SMCLK NO_WDT_ISR c d f) s) in
  let s' := snd (call (startWatchdogTimer ACLK SMCLK NO_WDT_ISR c d f) s) in
  r = 0
  /\ IE1 s' = uchar (Z.lor (IE1 s) WDTIE)
  /\ Z.land (WDTCTL s') WDTTMSEL = WDTTMSEL
  /\ watchdogFunctionToCall s' = f
  /\ exists l1 l2,
       continues s (l1 ++ Store_callback f :: l2 ++ [Write_WDTCTL (WDTCTL s')])
         s'.

(** The function pointers called among some events, oldest first. *)
Definition calls (l : list event) : list funptr :=
  flat_map (fun e => match e with Call f => [f] | _ => [] end) l.

(** The watchdog interrupt being served. *)
Definition is_interrupt (o : operation) : bool :=
  match o with WatchdogTimerIsr => true | _ => false end.

(** A call of [startWatchdogTimer]. *)
Definition is_timer_start (o : operation) : bool :=
  match o with StartWatchdogTimer _ _ _ => true | _ => false end.

(** What can set a held watchdog going: the two calls whose committed
    value can have the hold bit clear, and the watchdog interrupt, since
    the function it calls through the slot is free to write WDTCTL (it
    may be [resetWatchdog] itself). *)
Definition may_release_hold (o : operation) : bool :=
  match o with
  | ResetWatchdog | StartWatchdogTimer _ _ _ | WatchdogTimerIsr => true
  | _ => false
  end.

(** * Properties *)

(** ** Bytes, masks and the password *)

Create HintDb wdt.

Lemma uchar_is_byte (x : Z) : is_byte (uchar x).
Proof.
  unfold is_byte, uchar. now rewrite <- Z.land_assoc.
Qed.

Lemma ushort_uchar (x : Z) : ushort (uchar x) = uchar x.
Proof.
  unfold ushort, uchar. now rewrite <- Z.land_assoc.
Qed.

Lemma is_byte_lor (a b : Z) : is_byte a -> is_byte b -> is_byte (Z.lor a b).
Proof.
  unfold is_byte, uchar. intros Ha Hb.
  now rewrite Z.land_lor_distr_l, Ha, Hb.
Qed.

Lemma is_byte_land (a m : Z) : is_byte a -> is_byte (Z.land a m).
Proof.
  unfold is_byte, uchar. intros Ha.
  rewrite <- Z.land_assoc, (Z.land_comm m), Z.land_assoc. now rewrite Ha.
Qed.

Lemma is_byte_range (b : Z) : is_byte b -> 0 <= b < 256.
Proof.
  unfold is_byte, uchar. intros <-.
  change 0xFF with (Z.ones 8). rewrite Z.land_ones by lia.
  apply (Z.mod_pos_bound b (2 ^ 8)). lia.
Qed.

Lemma password_disjoint (b : Z) : is_byte b -> Z.land WDTPW b = 0.
Proof.
  unfold is_byte, uchar. intros <-.
  now rewrite (Z.land_comm b), Z.land_assoc.
Qed.

(** Adding a byte to the password is or-ing it in: the sum does not
    carry into the password. *)
Lemma password_add_lor (b : Z) : is_byte b -> WDTPW + b = Z.lor WDTPW b.
Proof.
  intros Hb. pose proof (password_disjoint b Hb) as Hd.
  rewrite <- (Z.lxor_lor _ _ Hd). now apply Z.add_nocarry_lxor.
Qed.

Lemma ushort_password_lor (b : Z) :
  is_byte b -> ushort (Z.lor WDTPW b) = Z.lor WDTPW b.
Proof.
  unfold is_byte, uchar, ushort. intros Hb.
  rewrite Z.land_lor_distr_l. f_equal.
  rewrite <- Hb, <- Z.land_assoc. reflexivity.
Qed.

Lemma ushort_password_add (b : Z) :
  is_byte b -> ushort (WDTPW + b) = Z.lor WDTPW b.
Proof.
  intros Hb. rewrite password_add_lor by assumption.
  now apply ushort_password_lor.
Qed.

Lemma uchar_password_lor (b : Z) : is_byte b -> uchar (Z.lor WDTPW b) = b.
Proof.
  unfold is_byte, uchar. intros Hb.
  now rewrite Z.land_lor_distr_l, Hb.
Qed.

Lemma has_password_lor (b : Z) : is_byte b -> has_password (Z.lor WDTPW b).
Proof.
  unfold is_byte, uchar, has_password. intros <-.
  rewrite Z.shiftr_lor, Z.shiftr_land.
  change (Z.shiftr 0xFF 8) with 0.
  now rewrite Z.land_0_r, Z.lor_0_r.
Qed.

(** The password is the byte 0x5A above the low byte. *)
Lemma has_password_upper_byte (v : Z) : has_password v <-> v / 256 = 0x5A.
Proof.
  unfold has_password. rewrite !Z.shiftr_div_pow2 by lia. reflexivity.
Qed.

(** Reading a field [m] of the low byte out of what was written. *)
Lemma field_password_lor (b m : Z) :
  Z.land WDTPW m = 0 -> Z.land (Z.lor WDTPW b) m = Z.land b m.
Proof.
  intros Hm. now rewrite Z.land_lor_distr_l, Hm.
Qed.

Lemma field_uchar (w m : Z) :
  Z.land 0xFF m = m -> Z.land (uchar w) m = Z.land w m.
Proof.
  unfold uchar. intros Hm. now rewrite <- Z.land_assoc, Hm.
Qed.

Lemma field_lor_other (b f m : Z) :
  Z.land f m = 0 -> Z.land (Z.lor b f) m = Z.land b m.
Proof.
  intros Hm. now rewrite Z.land_lor_distr_l, Hm, Z.lor_0_r.
Qed.

Lemma field_lor_same (b f : Z) : Z.land (Z.lor b f) f = f.
Proof.
  apply Z.bits_inj'. intros n _.
  rewrite Z.land_spec, Z.lor_spec.
  now destruct (Z.testbit b n), (Z.testbit f n).
Qed.

Lemma field_clear_other (b f m : Z) :
  Z.land (Z.lnot f) m = m -> Z.land (Z.land b (Z.lnot f)) m = Z.land b m.
Proof.
  intros Hm. now rewrite <- Z.land_assoc, Hm.
Qed.

Lemma field_clear_same (b f : Z) : Z.land (Z.land b (Z.lnot f)) f = 0.
Proof.
  rewrite <- Z.land_assoc, (Z.land_comm _ f), Z.land_lnot_diag.
  apply Z.land_0_r.
Qed.

#[local] Hint Resolve uchar_is_byte is_byte_lor is_byte_land : wdt.
#[local] Hint Extern 1 (is_byte _) => reflexivity : wdt.

(** ** What each read-modify-write commits *)

(** Unfolds the statements of a function body down to the state
    updates. *)
Ltac exec_body :=
  cbv beta iota zeta delta
    [call bind ret return_ load_WDTCTL store_WDTCTL load_IE1 store_IE1
     load_watchdogFunctionToCall store_watchdogFunctionToCall call_funptr].

(** A read-modify-write that ors [f] into the low byte. *)
Lemma commit_set_flag (f w : Z) :
  is_byte f ->
  ushort (WDTPW + Z.lor (uchar w) f) = Z.lor WDTPW (Z.lor (uchar w) f).
Proof.
  intros Hf. apply ushort_password_add. auto with wdt.
Qed.

(** A read-modify-write that masks [f] out of the low byte. *)
Lemma commit_clear_flag (f w : Z) :
  ushort (WDTPW + Z.land (uchar w) (Z.lnot f))
  = Z.lor WDTPW (Z.land (uchar w) (Z.lnot f)).
Proof.
  apply ushort_password_add. auto with wdt.
Qed.

Lemma holdWatchdog_call (s : machine) :
  call holdWatchdog s
  = (tt, set_WDTCTL (Z.lor WDTPW (Z.lor (uchar (WDTCTL s)) WDTHOLD)) s).
Proof.
  unfold holdWatchdog. exec_body.
  rewrite ushort_uchar, commit_set_flag by reflexivity. reflexivity.
Qed.

Lemma holdWatchdogTimer_call (s : machine) :
  call holdWatchdogTimer s
  = (tt, set_WDTCTL (Z.lor WDTPW (Z.lor (uchar (WDTCTL s)) WDTHOLD)) s).
Proof.
  unfold holdWatchdogTimer. exec_body.
  rewrite commit_set_flag by reflexivity. reflexivity.
Qed.

Lemma clearWatchdog_call (s : machine) :
  call clearWatchdog s
  = (tt, set_WDTCTL (Z.lor WDTPW (Z.lor (uchar (WDTCTL s)) WDTCNTCL)) s).
Proof.
  unfold clearWatchdog. exec_body.
  rewrite commit_set_flag by reflexivity. reflexivity.
Qed.

Lemma resetWatchdogTimer_call (s : machine) :
  call resetWatchdogTimer s
  = (tt, set_WDTCTL (Z.lor WDTPW (Z.lor (uchar (WDTCTL s)) WDTTMSEL)) s).
Proof.
  unfold resetWatchdogTimer. exec_body.
  rewrite commit_set_flag by reflexivity. reflexivity.
Qed.

Lemma resetWatchdog_call (s : machine) :
  call resetWatchdog s = (tt, set_WDTCTL WDTPW s).
Proof. reflexivity. Qed.

Lemma detectWatchdog_call (s : machine) :
  call detectWatchdog s
  = (true, set_WDTCTL (Z.lor WDTPW (Z.lor (uchar (WDTCTL s)) WDTHOLD)) s).
Proof.
  unfold detectWatchdog. exec_body.
  rewrite commit_set_flag by reflexivity. cbn [WDTCTL set_WDTCTL].
  rewrite uchar_password_lor by auto with wdt.
  assert (Hpos : 0 < Z.lor (uchar (WDTCTL s)) WDTHOLD).
  { assert (Hb : is_byte (Z.lor (uchar (WDTCTL s)) WDTHOLD)) by auto with wdt.
    apply is_byte_range in Hb.
    pose proof (field_lor_same (uchar (WDTCTL s)) WDTHOLD) as Hh.
    destruct (Z.eq_dec (Z.lor (uchar (WDTCTL s)) WDTHOLD) 0) as [E | E].
    - rewrite E in Hh. discriminate Hh.
    - lia. }
  apply Z.gtb_lt in Hpos. now rewrite Hpos.
Qed.

(** Fields of a committed value, read through the masks. *)
Ltac fields :=
  repeat first
    [ rewrite field_password_lor by reflexivity
    | rewrite field_lor_same
    | rewrite field_lor_other by reflexivity
    | rewrite field_clear_same
    | rewrite field_clear_other by reflexivity
    | rewrite field_uchar by reflexivity ].

Section Behaviour.

Variables ACLK SMCLK NMI FALLING : Z.
Variable NO_WDT_ISR : bool.

(** *** resetPinMode *)

Lemma resetPinMode_call (mode edge : Z) (s : machine) :
  let b1 := if mode =? NMI
            then Z.lor (uchar (WDTCTL s)) WDTNMI
            else Z.land (uchar (WDTCTL s)) (Z.lnot WDTNMI) in
  let b2 := if edge =? FALLING
            then Z.lor b1 WDTNMIES
            else Z.land b1 (Z.lnot WDTNMIES) in
  is_byte b1 /\ is_byte b2 /\
  call (resetPinMode NMI FALLING mode edge) s
  = (tt, set_WDTCTL (Z.lor WDTPW b2) (set_WDTCTL (Z.lor WDTPW b1) s)).
Proof.
  intros b1 b2.
  assert (H1 : is_byte b1) by (subst b1; destruct (mode =? NMI); auto with wdt).
  assert (H2 : is_byte b2) by (subst b2; destruct (edge =? FALLING); auto with wdt).
  split; [assumption | split; [assumption |]].
  unfold resetPinMode. subst b2 b1.
  destruct (mode =? NMI), (edge =? FALLING); exec_body;
    rewrite ?commit_set_flag, ?commit_clear_flag by reflexivity;
    cbn [WDTCTL set_WDTCTL];
    rewrite uchar_password_lor by auto with wdt;
    rewrite ?ushort_password_add by auto with wdt;
    reflexivity.
Qed.

(** *** The two start functions *)

(** The write that opens both start functions. *)
Lemma opening_hold_write : ushort (WDTPW + WDTHOLD) = WDTPW + WDTHOLD.
Proof. reflexivity. Qed.

(** Splits a start function along its tests on the clock source, the
    divider and the build option. *)
Ltac start_cases :=
  exec_body;
  repeat (match goal with
          | |- context [Z.eqb ?a ?b] => destruct (Z.eqb_spec a b)
          | |- context [if NO_WDT_ISR then _ else _] => destruct NO_WDT_ISR
          end; cbn [negb]; exec_body).

Lemma startWatchdog_invalid_clock (c d : Z) (s : machine) :
  c <> ACLK -> c <> SMCLK ->
  call (startWatchdog ACLK SMCLK c d) s = (1, set_WDTCTL (WDTPW + WDTHOLD) s).
Proof.
  intros Ha Hs. unfold startWatchdog. start_cases;
    solve [contradiction | reflexivity].
Qed.

Lemma startWatchdog_invalid_divider (c d : Z) (s : machine) :
  c = ACLK \/ c = SMCLK ->
  d <> 64 -> d <> 512 -> d <> 8912 -> d <> 32768 ->
  call (startWatchdog ACLK SMCLK c d) s = (2, set_WDTCTL (WDTPW + WDTHOLD) s).
Proof.
  intros Hc H1 H2 H3 H4. unfold startWatchdog. start_cases;
    solve [contradiction | reflexivity | destruct Hc; contradiction].
Qed.

Lemma startWatchdogTimer_invalid_clock (c d : Z) (f : funptr) (s : machine) :
  c <> ACLK -> c <> SMCLK ->
  call (startWatchdogTimer ACLK SMCLK NO_WDT_ISR c d f) s
  = (1, set_WDTCTL (WDTPW + WDTHOLD) s).
Proof.
  intros Ha Hs. unfold startWatchdogTimer. start_cases;
    solve [contradiction | reflexivity].
Qed.

Lemma startWatchdogTimer_invalid_divider
  (c d : Z) (f : funptr) (s : machine) :
  c = ACLK \/ c = SMCLK ->
  d <> 64 -> d <> 512 -> d <> 8912 -> d <> 32768 ->
  call (startWatchdogTimer ACLK SMCLK NO_WDT_ISR c d f) s
  = (2, set_WDTCTL (WDTPW + WDTHOLD) s).
Proof.
  intros Hc H1 H2 H3 H4. unfold startWatchdogTimer. start_cases;
    solve [contradiction | reflexivity | destruct Hc; contradiction].
Qed.

(** Which values the successful watchdog start commits, divider by
    divider, as the code has the table. *)
Lemma startWatchdog_interval_select (c d i : Z) (s : machine) :
  c = ACLK \/ c = SMCLK ->
  In (d, i) [(64, WDTIS_3); (512, WDTIS_2); (8912, WDTIS_1);
             (32768, WDTIS_0)] ->
  exists v,
    call (startWatchdog ACLK SMCLK c d) s
    = (0, set_WDTCTL v (set_WDTCTL (WDTPW + WDTHOLD) s))
    /\ has_password v
    /\ Z.land v WDTIS = i.
Proof.
  intros Hc Hd. cbn [In] in Hd.
  assert (Hd' : (d = 64 /\ i = WDTIS_3) \/ (d = 512 /\ i = WDTIS_2)
                \/ (d = 8912 /\ i = WDTIS_1) \/ (d = 32768 /\ i = WDTIS_0)).
  { destruct Hd as [E | [E | [E | [E | []]]]]; inversion E; tauto. }
  clear Hd.
  unfold startWatchdog. start_cases;
    try (exfalso; destruct Hc; congruence);
    try (exfalso; destruct Hd' as [[? ?]|[[? ?]|[[? ?]|[? ?]]]]; congruence);
    (eexists; split; [reflexivity | split; [reflexivity |]]);
    destruct Hd' as [[? ?]|[[? ?]|[[? ?]|[? ?]]]]; subst;
    solve [reflexivity | discriminate | congruence].
Qed.

(** A failed watchdog start has done nothing but the opening write. *)
Lemma startWatchdog_error (c d : Z) (s : machine) :
  fst (call (startWatchdog ACLK SMCLK c d) s) <> 0 ->
  snd (call (startWatchdog ACLK SMCLK c d) s)
  = set_WDTCTL (WDTPW + WDTHOLD) s.
Proof.
  unfold startWatchdog. start_cases; cbn [fst snd]; intros H;
    solve [reflexivity | contradiction].
Qed.

(** So has a failed interval-timer start. *)
Lemma startWatchdogTimer_error (c d : Z) (f : funptr) (s : machine) :
  fst (call (startWatchdogTimer ACLK SMCLK NO_WDT_ISR c d f) s) <> 0 ->
  snd (call (startWatchdogTimer ACLK SMCLK NO_WDT_ISR c d f) s)
  = set_WDTCTL (WDTPW + WDTHOLD) s.
Proof.
  unfold startWatchdogTimer. start_cases; cbn [fst snd]; intros H;
    solve [reflexivity | contradiction].
Qed.

(** ** The password discipline *)

Lemma wdtctl_writes_app (l1 l2 : list event) :
  wdtctl_writes (l1 ++ l2) = wdtctl_writes l1 ++ wdtctl_writes l2.
Proof. apply flat_map_app. Qed.

Lemma password_kept_refl (s : machine) : password_kept s s.
Proof.
  exists []. split; [unfold continues; now rewrite app_nil_r | constructor].
Qed.

Lemma password_kept_trans (s1 s2 s3 : machine) :
  password_kept s1 s2 -> password_kept s2 s3 -> password_kept s1 s3.
Proof.
  intros (n1 & H1 & F1) (n2 & H2 & F2). exists (n1 ++ n2). split.
  - unfold continues in *. now rewrite H2, H1, app_assoc.
  - rewrite wdtctl_writes_app. apply Forall_app. now split.
Qed.

Lemma password_kept_set_WDTCTL (s s1 : machine) (v : Z) :
  has_password v -> password_kept s s1 -> password_kept s (set_WDTCTL v s1).
Proof.
  intros Hv H. apply (password_kept_trans s s1); [assumption |].
  exists [Write_WDTCTL v]. split; [reflexivity | now repeat constructor].
Qed.

Lemma password_kept_set_IE1 (s s1 : machine) (v : Z) :
  password_kept s s1 -> password_kept s (set_IE1 v s1).
Proof.
  intros H. apply (password_kept_trans s s1); [assumption |].
  exists [Write_IE1 v]. split; [reflexivity | constructor].
Qed.

Lemma password_kept_set_callback (s s1 : machine) (f : funptr) :
  password_kept s s1 -> password_kept s (set_callback f s1).
Proof.
  intros H. apply (password_kept_trans s s1); [assumption |].
  exists [Store_callback f]. split; [reflexivity | constructor].
Qed.

Lemma password_kept_called (s s1 : machine) (f : funptr) :
  password_kept s s1 -> password_kept s (called f s1).
Proof.
  intros H. apply (password_kept_trans s s1); [assumption |].
  exists [Call f]. split; [reflexivity | constructor].
Qed.

(** Peels the state updates of a call off one by one. *)
Ltac password_steps :=
  cbn [snd];
  repeat first
    [ apply password_kept_refl
    | apply password_kept_set_WDTCTL;
      [first [apply has_password_lor; auto with wdt | reflexivity] |]
    | apply password_kept_set_IE1
    | apply password_kept_set_callback
    | apply password_kept_called ].

Lemma exec_password_kept (o : operation) (s : machine) :
  password_kept s (exec ACLK SMCLK NMI FALLING NO_WDT_ISR o s).
Proof.
  destruct o as [ | | c d | | | | c d f | | m e | ]; cbn [exec].
  - rewrite detectWatchdog_call. password_steps.
  - rewrite holdWatchdog_call. password_steps.
  - unfold startWatchdog. start_cases; password_steps.
  - rewrite resetWatchdog_call. password_steps.
  - rewrite clearWatchdog_call. password_steps.
  - rewrite holdWatchdogTimer_call. password_steps.
  - unfold startWatchdogTimer. start_cases; password_steps.
  - rewrite resetWatchdogTimer_call. password_steps.
  - destruct (resetPinMode_call m e s) as (H1 & H2 & ->).
    cbn [snd].
    apply password_kept_set_WDTCTL; [now apply has_password_lor |].
    apply password_kept_set_WDTCTL; [now apply has_password_lor |].
    apply password_kept_refl.
  - unfold watchdog_timer_isr. destruct NO_WDT_ISR; exec_body;
      password_steps.
Qed.

(** C1. Whatever sequence of library operations (and watchdog interrupts)
    is run from whatever register contents, every value the library
    writes to WDTCTL has the password WDTPW in its upper byte. *)
Theorem every_write_carries_password (p : list operation) (s : machine) :
  exists new,
    bus (run ACLK SMCLK NMI FALLING NO_WDT_ISR p s) = bus s ++ new
    /\ Forall (fun v => Z.shiftr v 8 = Z.shiftr WDTPW 8 /\ v / 256 = 0x5A)
         (wdtctl_writes new).
Proof.
  enough (H : password_kept s (run ACLK SMCLK NMI FALLING NO_WDT_ISR p s)).
  { destruct H as (new & Hbus & Hpw). exists new. split; [exact Hbus |].
    eapply Forall_impl; [| exact Hpw].
    intros v Hv. split; [exact Hv | now apply has_password_upper_byte]. }
  revert s. induction p as [| o p IH]; intros s.
  - apply password_kept_refl.
  - cbn [run fold_left].
    apply (password_kept_trans s (exec ACLK SMCLK NMI FALLING NO_WDT_ISR o s)).
    + apply exec_password_kept.
    + apply IH.
Qed.

(** ** Holding and clearing *)

(** C9. holdWatchdogTimer is holdWatchdog under another name: from every
    state both leave the same state (registers and bus alike) and return
    the same nothing. *)
Theorem holdWatchdogTimer_is_holdWatchdog (s : machine) :
  call holdWatchdogTimer s = call holdWatchdog s.
Proof.
  now rewrite holdWatchdogTimer_call, holdWatchdog_call.
Qed.

(** C8. After holdWatchdog the hold bit of the register is set and every
    other bit of its low byte is as it was; a second call in a row leaves
    the registers exactly as the first one did. *)
Theorem holdWatchdog_holds_and_is_idempotent (s : machine) :
  let s1 := snd (call holdWatchdog s) in
  let s2 := snd (call holdWatchdog s1) in
  Z.land (WDTCTL s1) WDTHOLD = WDTHOLD
  /\ Z.land (WDTCTL s1) (low_except WDTHOLD)
     = Z.land (WDTCTL s) (low_except WDTHOLD)
  /\ IE1 s1 = IE1 s
  /\ watchdogFunctionToCall s1 = watchdogFunctionToCall s
  /\ regs s2 = regs s1.
Proof.
  cbv zeta. rewrite !holdWatchdog_call. cbn [snd].
  unfold regs. cbn [WDTCTL IE1 watchdogFunctionToCall set_WDTCTL].
  repeat split.
  - now fields.
  - now fields.
  - rewrite uchar_password_lor by auto with wdt.
    now rewrite <- Z.lor_assoc, Z.lor_diag.
Qed.

(** C6. clearWatchdog commits a value in which the clock-source-select,
    timer-mode-select, interval-select, hold and NMI bits (and the NMI
    edge bit) are those of the register before the call, and in which the
    count-clear bit is set: the low byte differs from the old one in that
    bit at most. *)
Theorem clearWatchdog_preserves_configuration (s : machine) :
  exists v,
    snd (call clearWatchdog s) = set_WDTCTL v s
    /\ has_password v
    /\ Z.land v WDTCNTCL = WDTCNTCL
    /\ Z.land v WDTSSEL = Z.land (WDTCTL s) WDTSSEL
    /\ Z.land v WDTTMSEL = Z.land (WDTCTL s) WDTTMSEL
    /\ Z.land v WDTIS = Z.land (WDTCTL s) WDTIS
    /\ Z.land v WDTHOLD = Z.land (WDTCTL s) WDTHOLD
    /\ Z.land v WDTNMI = Z.land (WDTCTL s) WDTNMI
    /\ Z.land v WDTNMIES = Z.land (WDTCTL s) WDTNMIES
    /\ Z.land v (low_except WDTCNTCL)
       = Z.land (WDTCTL s) (low_except WDTCNTCL).
Proof.
  rewrite clearWatchdog_call. cbn [snd]. eexists. split; [reflexivity |].
  split; [apply has_password_lor; auto with wdt |].
  repeat split; now fields.
Qed.

(** ** The reset pin *)

(** C7. resetPinMode makes two commits, each with the password: the first
    sets the NMI-select bit when the mode is NMI and clears it otherwise,
    the second sets the NMI-edge-select bit when the edge is FALLING and
    clears it otherwise, and each leaves the rest of the low byte alone.
    So whatever the register held, (NMI, FALLING) leaves both bits set,
    any other mode with any other edge leaves both cleared, and the mixed
    pairs set one and clear the other. *)
Theorem resetPinMode_sets_mode_then_edge (mode edge : Z) (s : machine) :
  exists v1 v2,
    snd (call (resetPinMode NMI FALLING mode edge) s)
    = set_WDTCTL v2 (set_WDTCTL v1 s)
    /\ has_password v1 /\ has_password v2
    /\ Z.land v1 WDTNMI = (if mode =? NMI then WDTNMI else 0)
    /\ Z.land v1 (low_except WDTNMI) = Z.land (WDTCTL s) (low_except WDTNMI)
    /\ Z.land v2 WDTNMIES = (if edge =? FALLING then WDTNMIES else 0)
    /\ Z.land v2 (low_except WDTNMIES) = Z.land v1 (low_except WDTNMIES)
    /\ Z.land v2 WDTNMI = (if mode =? NMI then WDTNMI else 0)
    /\ Z.land v2 (low_except (Z.lor WDTNMI WDTNMIES))
       = Z.land (WDTCTL s) (low_except (Z.lor WDTNMI WDTNMIES)).
Proof.
  destruct (resetPinMode_call mode edge s) as (H1 & H2 & ->).
  cbn [snd]. do 2 eexists. split; [reflexivity |].
  split; [now apply has_password_lor |].
  split; [now apply has_password_lor |].
  clear H1 H2.
  destruct (mode =? NMI), (edge =? FALLING); repeat split; now fields.
Qed.

(** ** Starting the watchdog *)

(** C2. The watchdog start does not take the documented divider 8192:
    with either clock source it answers 2 and has done nothing but the
    opening write that holds the watchdog.  (Its table reads 8912 where
    the interval field of the hardware stands for 8192.) *)
Theorem startWatchdog_refuses_8192 (s : machine) :
  call (startWatchdog ACLK SMCLK ACLK 8192) s
  = (2, set_WDTCTL (WDTPW + WDTHOLD) s)
  /\ call (startWatchdog ACLK SMCLK SMCLK 8192) s
     = (2, set_WDTCTL (WDTPW + WDTHOLD) s).
Proof.
  split; apply startWatchdog_invalid_divider;
    solve [now left | now right | discriminate].
Qed.

(** C3. Whenever the watchdog start answers 0, the value it commits last
    has the password, the count-clear bit set, the timer-mode-select bit
    clear, the clock-source-select bit set exactly when ACLK was asked
    for, and the hold bit SET: the watchdog is left stopped. *)
Theorem startWatchdog_commits_hold (c d : Z) (s : machine) :
  fst (call (startWatchdog ACLK SMCLK c d) s) = 0 ->
  exists v,
    snd (call (startWatchdog ACLK SMCLK c d) s)
    = set_WDTCTL v (set_WDTCTL (WDTPW + WDTHOLD) s)
    /\ has_password v
    /\ Z.land v WDTHOLD = WDTHOLD
    /\ Z.land v WDTTMSEL = 0
    /\ Z.land v WDTCNTCL = WDTCNTCL
    /\ (Z.land v WDTSSEL = WDTSSEL <-> c = ACLK).
Proof.
  unfold startWatchdog. start_cases; cbn [fst snd]; intros H;
    try discriminate H;
    (eexists; split; [reflexivity |]);
    repeat split; try reflexivity; try assumption;
    intros; solve [assumption | discriminate | contradiction].
Qed.

(** C5. Both start functions take the divider 8912, which is none of the
    documented ones: they answer 0 instead of 2 and go on to a second,
    committing write to WDTCTL after the opening one. *)
Theorem start_functions_accept_8912 (f : funptr) (s : machine) :
  call (startWatchdog ACLK SMCLK ACLK 8912) s
  = (0, set_WDTCTL 0x5A8D (set_WDTCTL (WDTPW + WDTHOLD) s))
  /\ fst (call (startWatchdogTimer ACLK SMCLK NO_WDT_ISR ACLK 8912 f) s) = 0
  /\ exists new,
       continues s new
         (snd (call (startWatchdogTimer ACLK SMCLK NO_WDT_ISR ACLK 8912 f) s))
       /\ wdtctl_writes new = [WDTPW + WDTHOLD; 0x5A1D].
Proof.
  split; [| split].
  - unfold startWatchdog. start_cases; solve [reflexivity | congruence].
  - unfold startWatchdogTimer. start_cases;
      solve [reflexivity | congruence].
  - unfold startWatchdogTimer. start_cases; try congruence;
      (eexists; split;
       [unfold continues; cbn [snd bus set_WDTCTL set_IE1 set_callback];
        rewrite <- !app_assoc; reflexivity
       | reflexivity]).
Qed.

(** ** Starting the interval timer *)

(** C10. When the interval-timer start answers anything but 0, the
    interrupt enable register and the callback slot are as they were
    before the call: the only thing done is the opening write to
    WDTCTL. *)
Theorem startWatchdogTimer_error_before_interrupt_setup
  (c d : Z) (f : funptr) (s : machine) :
  fst (call (startWatchdogTimer ACLK SMCLK NO_WDT_ISR c d f) s) <> 0 ->
  let s' := snd (call (startWatchdogTimer ACLK SMCLK NO_WDT_ISR c d f) s) in
  IE1 s' = IE1 s
  /\ watchdogFunctionToCall s' = watchdogFunctionToCall s
  /\ continues s [Write_WDTCTL (WDTPW + WDTHOLD)] s'.
Proof.
  intros H. cbv zeta. rewrite (startWatchdogTimer_error c d f s H).
  repeat split.
Qed.

(** C4. The interval-timer start does not take the documented divider
    8192 either: with ACLK as with SMCLK, whatever the callback, the
    registers and the build, it answers 2 and has done nothing but the
    opening write, so IE1 is not touched, the callback is not stored and
    no timer mode is committed; the documented contract fails at that
    input.  (The table reads 8912, as in startWatchdog.) *)
Theorem startWatchdogTimer_refuses_8192 (f : funptr) (s : machine) :
  call (startWatchdogTimer ACLK SMCLK NO_WDT_ISR ACLK 8192 f) s
  = (2, set_WDTCTL (WDTPW + WDTHOLD) s)
  /\ call (startWatchdogTimer ACLK SMCLK NO_WDT_ISR SMCLK 8192 f) s
     = (2, set_WDTCTL (WDTPW + WDTHOLD) s)
  /\ ~ startWatchdogTimer_documented ACLK SMCLK NO_WDT_ISR ACLK 8192 f s.
Proof.
  assert (HA : call (startWatchdogTimer ACLK SMCLK NO_WDT_ISR ACLK 8192 f) s
               = (2, set_WDTCTL (WDTPW + WDTHOLD) s)).
  { apply startWatchdogTimer_invalid_divider;
      solve [now left | discriminate]. }
  split; [exact HA | split].
  - apply startWatchdogTimer_invalid_divider;
      solve [now right | discriminate].
  - intros H. destruct H as (Hr & _).
    + now left.
    + cbn [In]. tauto.
    + rewrite HA in Hr. discriminate Hr.
Qed.

(** With a valid clock source and a divider among 64, 512 and
    32768, the interval-timer start answers 0; it ors WDTIE into IE1;
    the value it commits last has the password and the timer-mode-select
    bit set; and the events of the call are, in this order, the opening
    write, the write to IE1, the store of the callback, and the
    committing write.  The store is there when the interrupt routine is
    compiled in; when NO_WDT_ISR leaves it out, the slot keeps what it
    held. *)
Theorem startWatchdogTimer_starts (c d : Z) (f : funptr) (s : machine) :
  c = ACLK \/ c = SMCLK ->
  In d [64; 512; 32768] ->
  let r := fst (call (startWatchdogTimer ACLK SMCLK NO_WDT_ISR c d f) s) in
  let s' := snd (call (startWatchdogTimer ACLK SMCLK NO_WDT_ISR c d f) s) in
  r = 0
  /\ IE1 s' = uchar (Z.lor (IE1 s) WDTIE)
  /\ Z.land (IE1 s') WDTIE = WDTIE
  /\ has_password (WDTCTL s')
  /\ Z.land (WDTCTL s') WDTTMSEL = WDTTMSEL
  /\ watchdogFunctionToCall s'
     = (if NO_WDT_ISR then watchdogFunctionToCall s else f)
  /\ continues s
       (Write_WDTCTL (WDTPW + WDTHOLD)
        :: Write_IE1 (IE1 s')
        :: (if NO_WDT_ISR then [] else [Store_callback f])
        ++ [Write_WDTCTL (WDTCTL s')])
       s'.
Proof.
  intros Hc Hd. cbn [In] in Hd.
  assert (Hie : Z.land (uchar (Z.lor (IE1 s) WDTIE)) WDTIE = WDTIE)
    by now fields.
  cbv zeta. unfold startWatchdogTimer. start_cases;
    try (exfalso; destruct Hc; congruence);
    try (exfalso; destruct Hd as [E | [E | [E | []]]]; congruence);
    cbn [fst snd WDTCTL IE1 watchdogFunctionToCall bus
         set_WDTCTL set_IE1 set_callback];
    (repeat split; try reflexivity; try exact Hie);
    unfold continues;
    cbn [bus set_WDTCTL set_IE1 set_callback app];
    rewrite <- !app_assoc; reflexivity.
Qed.

(** Once the interval timer is started with the routine compiled in, the
    watchdog interrupt calls the callback that was handed over, once. *)
Lemma watchdog_timer_isr_calls_callback
  (c d : Z) (f : funptr) (s : machine) :
  NO_WDT_ISR = false ->
  fst (call (startWatchdogTimer ACLK SMCLK NO_WDT_ISR c d f) s) = 0 ->
  let s' := snd (call (startWatchdogTimer ACLK SMCLK NO_WDT_ISR c d f) s) in
  call (watchdog_timer_isr NO_WDT_ISR) s' = (tt, called f s').
Proof.
  intros -> . unfold startWatchdogTimer, watchdog_timer_isr.
  exec_body.
  repeat (match goal with
          | |- context [Z.eqb ?a ?b] => destruct (Z.eqb_spec a b)
          end; cbn [negb]; exec_body);
    cbn [fst snd]; intros H; solve [discriminate H | reflexivity].
Qed.

End Behaviour.

(** ** The statements at concrete inputs *)

(** A successful watchdog start from the power-up state, with 1 and 2
    standing for ACLK and SMCLK. *)
Lemma startWatchdog_commits_hold_witness :
  fst (call (startWatchdog 1 2 1 64) power_up) = 0
  /\ exists v,
       snd (call (startWatchdog 1 2 1 64) power_up)
       = set_WDTCTL v (set_WDTCTL (WDTPW + WDTHOLD) power_up)
       /\ has_password v
       /\ Z.land v WDTHOLD = WDTHOLD
       /\ Z.land v WDTTMSEL = 0
       /\ Z.land v WDTCNTCL = WDTCNTCL
       /\ (Z.land v WDTSSEL = WDTSSEL <-> 1 = 1).
Proof.
  split.
  - reflexivity.
  - apply (startWatchdog_commits_hold 1 2 1 64 power_up). reflexivity.
Defined.

(** An interval-timer start refused for its clock source. *)
Lemma startWatchdogTimer_error_witness :
  fst (call (startWatchdogTimer 1 2 false 3 64 0xC000) power_up) <> 0
  /\ IE1 (snd (call (startWatchdogTimer 1 2 false 3 64 0xC000) power_up))
     = IE1 power_up
  /\ watchdogFunctionToCall
       (snd (call (startWatchdogTimer 1 2 false 3 64 0xC000) power_up))
     = watchdogFunctionToCall power_up
  /\ continues power_up [Write_WDTCTL (WDTPW + WDTHOLD)]
       (snd (call (startWatchdogTimer 1 2 false 3 64 0xC000) power_up)).
Proof.
  assert (H : fst (call (startWatchdogTimer 1 2 false 3 64 0xC000) power_up)
              <> 0) by (vm_compute; discriminate).
  split.
  - exact H.
  - exact (startWatchdogTimer_error_before_interrupt_setup
             1 2 false 3 64 0xC000 power_up H).
Defined.

(** An interval-timer start on the sub-main clock with divider 512. *)
Lemma startWatchdogTimer_starts_witness :
  (2 = 1 \/ 2 = 2)
  /\ In 512 [64; 512; 32768]
  /\ fst (call (startWatchdogTimer 1 2 false 2 512 0xC000) power_up) = 0
  /\ watchdogFunctionToCall
       (snd (call (startWatchdogTimer 1 2 false 2 512 0xC000) power_up))
     = 0xC000
  /\ bus (snd (call (startWatchdogTimer 1 2 false 2 512 0xC000) power_up))
     = [Write_WDTCTL 0x5A80; Write_IE1 0x01; Store_callback 0xC000;
        Write_WDTCTL 0x5A1A].
Proof.
  assert (Hc : 2 = 1 \/ 2 = 2) by (right; reflexivity).
  assert (Hd : In 512 [64; 512; 32768]) by (simpl; right; left; reflexivity).
  split; [exact Hc | split; [exact Hd |]].
  destruct (startWatchdogTimer_starts 1 2 false 2 512 0xC000 power_up Hc Hd)
    as (Hr & _ & _ & _ & _ & Hf & Hbus).
  split; [exact Hr | split; [exact Hf | exact Hbus]].
Defined.

(** Off 8192 the documented contract of the interval-timer start holds,
    in the build that has the interrupt routine: for the dividers 64,
    512 and 32768 the call does all it is documented to do. *)
Lemma startWatchdogTimer_documented_elsewhere
  (ACLK SMCLK c d : Z) (f : funptr) (s : machine) :
  In d [64; 512; 32768] ->
  startWatchdogTimer_documented ACLK SMCLK false c d f s.
Proof.
  intros Hd Hc _.
  destruct (startWatchdogTimer_starts ACLK SMCLK false c d f s Hc Hd)
    as (Hr & Hie & _ & _ & Htm & Hf & Hbus).
  cbv zeta. split; [exact Hr | split; [exact Hie | split; [exact Htm |]]].
  split; [exact Hf |].
  exists [Write_WDTCTL (WDTPW + WDTHOLD);
          Write_IE1
            (IE1 (snd (call (startWatchdogTimer ACLK SMCLK false c d f) s)))],
         [].
  exact Hbus.
Qed.

(** * Further behaviour of the library *)


Section Coverage.

Variables ACLK SMCLK NMI FALLING : Z.
Variable NO_WDT_ISR : bool.

(** Splits a start function along its tests. *)
Ltac split_start :=
  exec_body;
  repeat (match goal with
          | |- context [Z.eqb ?a ?b] => destruct (Z.eqb_spec a b)
          | |- context [if NO_WDT_ISR then _ else _] => destruct NO_WDT_ISR
          end; cbn [negb]; exec_body).

(** ** Probing, resetting, and the timer mode bit *)

(** X1. detectWatchdog answers true from every register state, since the
    hold bit it has just written is read back in the low byte; and
    it acts on the machine exactly as holdWatchdog does, so probing
    stops the watchdog. *)
Theorem detectWatchdog_answers_true_and_holds (s : machine) :
  fst (call detectWatchdog s) = true
  /\ snd (call detectWatchdog s) = snd (call holdWatchdog s)
  /\ Z.land (WDTCTL (snd (call detectWatchdog s))) WDTHOLD = WDTHOLD.
Proof.
  rewrite detectWatchdog_call, holdWatchdog_call. cbn [fst snd].
  repeat split. cbn [WDTCTL set_WDTCTL]. now fields.
Qed.

(** X2. resetWatchdog forgets whatever was configured: after any program
    followed by resetWatchdog the register holds the bare password, so
    the hold bit is clear (the watchdog counts), every configuration
    field including the reset pin mode is zero, and the count-clear
    bit was not written; IE1 and the callback slot are those the
    program left. *)
Theorem resetWatchdog_forgets_configuration
  (p : list operation) (s : machine) :
  let s1 := run ACLK SMCLK NMI FALLING NO_WDT_ISR p s in
  let s2 := run ACLK SMCLK NMI FALLING NO_WDT_ISR (p ++ [ResetWatchdog]) s in
  WDTCTL s2 = WDTPW
  /\ uchar (WDTCTL s2) = 0
  /\ Z.land (WDTCTL s2) WDTHOLD = 0
  /\ Z.land (WDTCTL s2) WDTCNTCL = 0
  /\ IE1 s2 = IE1 s1
  /\ watchdogFunctionToCall s2 = watchdogFunctionToCall s1
  /\ continues s1 [Write_WDTCTL WDTPW] s2.
Proof.
  cbv zeta. unfold run. rewrite fold_left_app. cbn [fold_left exec].
  rewrite resetWatchdog_call. cbn [snd]. repeat split.
Qed.

(** X3. resetWatchdogTimer only sets the timer-mode-select bit: the value
    it commits has the password and that bit set, and the rest of the
    low byte, the hold bit among it, as the register had it.  It
    neither releases a held timer nor touches IE1 or the callback. *)
Theorem resetWatchdogTimer_sets_timer_mode_only (s : machine) :
  exists v,
    snd (call resetWatchdogTimer s) = set_WDTCTL v s
    /\ has_password v
    /\ Z.land v WDTTMSEL = WDTTMSEL
    /\ Z.land v WDTHOLD = Z.land (WDTCTL s) WDTHOLD
    /\ Z.land v (low_except WDTTMSEL)
       = Z.land (WDTCTL s) (low_except WDTTMSEL).
Proof.
  rewrite resetWatchdogTimer_call. cbn [snd]. eexists.
  split; [reflexivity |].
  split; [apply has_password_lor; auto with wdt |].
  repeat split; now fields.
Qed.

(** ** The status of the start functions *)

(** X10. The two start functions answer alike, whatever the registers
    hold and whichever callback is passed: 1 exactly when the clock
    source is neither ACLK nor SMCLK, whatever the divider; 2 exactly
    when the clock source is one of the two and the divider is none of
    64, 512, 8912 and 32768; 0 otherwise. *)
Theorem start_status (c d : Z) (f : funptr) (s1 s2 : machine) :
  let r := fst (call (startWatchdog ACLK SMCLK c d) s1) in
  r = fst (call (startWatchdogTimer ACLK SMCLK NO_WDT_ISR c d f) s2)
  /\ (r = 0 \/ r = 1 \/ r = 2)
  /\ (r = 1 <-> c <> ACLK /\ c <> SMCLK)
  /\ (r = 2 <-> (c = ACLK \/ c = SMCLK) /\ ~ In d [64; 512; 8912; 32768]).
Proof.
  cbv zeta. unfold startWatchdog, startWatchdogTimer. cbn [In].
  split_start; cbn [fst];
    (split; [reflexivity |]);
    (split; [tauto |]);
    split; split; intros H; try discriminate H; try tauto; try lia.
Qed.

(** X12. When startWatchdogTimer answers 0, the value it commits has the
    hold bit clear, so the timer runs; the count-clear bit set; both
    NMI bits clear; the clock-source-select bit set exactly when ACLK
    was asked for; and the interval field 3, 2, 1 or 0 for the divider
    64, 512, 8912 or 32768. *)
Theorem startWatchdogTimer_committed_value
  (c d : Z) (f : funptr) (s : machine) :
  fst (call (startWatchdogTimer ACLK SMCLK NO_WDT_ISR c d f) s) = 0 ->
  let v := WDTCTL (snd (call (startWatchdogTimer ACLK SMCLK NO_WDT_ISR
                                 c d f) s)) in
  Z.land v WDTHOLD = 0
  /\ Z.land v WDTCNTCL = WDTCNTCL
  /\ Z.land v (Z.lor WDTNMI WDTNMIES) = 0
  /\ (Z.land v WDTSSEL = WDTSSEL <-> c = ACLK)
  /\ In (d, Z.land v WDTIS)
       [(64, WDTIS_3); (512, WDTIS_2); (8912, WDTIS_1); (32768, WDTIS_0)].
Proof.
  cbv zeta. unfold startWatchdogTimer.
  split_start; cbn [fst snd WDTCTL set_WDTCTL]; intros H;
    try discriminate H; subst d;
    (split; [reflexivity |]);
    (split; [reflexivity |]);
    (split; [reflexivity |]);
    (split;
     [split; intros; solve [assumption | discriminate | contradiction
                            | reflexivity]
     | cbn; tauto ]).
Qed.

(** X13. A start function that answers anything but 0 leaves WDTCTL at
    password plus hold bit, whatever the register held before: the
    mode, clock, interval and reset pin settings made earlier are gone
    and the watchdog is stopped.  IE1 and the callback slot are as they
    were.  This holds for startWatchdog and startWatchdogTimer alike. *)
Theorem failed_start_leaves_watchdog_held
  (c d : Z) (f : funptr) (s : machine) :
  fst (call (startWatchdog ACLK SMCLK c d) s) <> 0 ->
  regs (snd (call (startWatchdog ACLK SMCLK c d) s))
  = (WDTPW + WDTHOLD, IE1 s, watchdogFunctionToCall s)
  /\ regs (snd (call (startWatchdogTimer ACLK SMCLK NO_WDT_ISR c d f) s))
     = (WDTPW + WDTHOLD, IE1 s, watchdogFunctionToCall s)
  /\ uchar (WDTPW + WDTHOLD) = WDTHOLD.
Proof.
  unfold startWatchdog, startWatchdogTimer.
  split_start; cbn [fst snd]; intros H;
    solve [contradiction | repeat split].
Qed.

(** ** Start functions and the reset pin *)

(** X14. The order of start and resetPinMode matters.  Either start
    function, whatever it answers, leaves both NMI bits clear, so a pin
    mode set before it is lost; resetPinMode called after a start sets
    the two bits as asked and keeps the rest of the low byte as the
    start left it. *)
Theorem pin_mode_is_lost_by_start_and_kept_after
  (c d : Z) (f : funptr) (mode edge : Z) (s : machine) :
  let nmi := Z.lor WDTNMI WDTNMIES in
  let pin := exec ACLK SMCLK NMI FALLING NO_WDT_ISR (ResetPinMode mode edge) in
  let wdt := exec ACLK SMCLK NMI FALLING NO_WDT_ISR (StartWatchdog c d) in
  let tmr := exec ACLK SMCLK NMI FALLING NO_WDT_ISR
               (StartWatchdogTimer c d f) in
  Z.land (WDTCTL (wdt (pin s))) nmi = 0
  /\ Z.land (WDTCTL (tmr (pin s))) nmi = 0
  /\ Z.land (WDTCTL (pin (tmr s))) nmi
     = Z.lor (if mode =? NMI then WDTNMI else 0)
             (if edge =? FALLING then WDTNMIES else 0)
  /\ Z.land (WDTCTL (pin (tmr s))) (low_except nmi)
     = Z.land (WDTCTL (tmr s)) (low_except nmi).
Proof.
  cbv zeta. split; [| split].
  - cbn [exec]. generalize (snd (call (resetPinMode NMI FALLING mode edge) s)).
    intros s1. unfold startWatchdog. split_start; reflexivity.
  - cbn [exec]. generalize (snd (call (resetPinMode NMI FALLING mode edge) s)).
    intros s1. unfold startWatchdogTimer. split_start; reflexivity.
  - cbn [exec].
    generalize (snd (call (startWatchdogTimer ACLK SMCLK NO_WDT_ISR c d f) s)).
    intros s1.
    destruct (resetPinMode_call NMI FALLING mode edge s1) as (_ & _ & ->).
    cbn [snd WDTCTL set_WDTCTL].
    destruct (mode =? NMI), (edge =? FALLING); split;
      solve [rewrite Z.land_lor_distr_r; now fields | now fields].
Qed.

(** ** Repeating a call *)





(** ** What whole programs keep *)

Lemma run_snoc (p : list operation) (o : operation) (s : machine) :
  run ACLK SMCLK NMI FALLING NO_WDT_ISR (p ++ [o]) s
  = exec ACLK SMCLK NMI FALLING NO_WDT_ISR o
      (run ACLK SMCLK NMI FALLING NO_WDT_ISR p s).
Proof.
  unfold run. now rewrite fold_left_app.
Qed.

(** A property kept by every operation that passes [ok] is kept by the
    programs made of such operations. *)
Lemma run_keeps (I : machine -> Prop) (ok : operation -> bool) :
  (forall o s, ok o = true -> I s ->
               I (exec ACLK SMCLK NMI FALLING NO_WDT_ISR o s)) ->
  forall p s, forallb ok p = true -> I s ->
              I (run ACLK SMCLK NMI FALLING NO_WDT_ISR p s).
Proof.
  intros Hstep p. induction p as [| o p IH]; intros s Hok Hs.
  - exact Hs.
  - cbn [forallb] in Hok. apply andb_prop in Hok as [Ho Hp].
    change (run ACLK SMCLK NMI FALLING NO_WDT_ISR (o :: p) s)
      with (run ACLK SMCLK NMI FALLING NO_WDT_ISR p
              (exec ACLK SMCLK NMI FALLING NO_WDT_ISR o s)).
    apply IH; [exact Hp |]. now apply Hstep.
Qed.

(** What one operation does to the interrupt enable register and to the
    callback slot: nothing, unless it is an interval-timer start that
    succeeds. *)
Lemma exec_interrupt_setup (o : operation) (s : machine) :
  let s' := exec ACLK SMCLK NMI FALLING NO_WDT_ISR o s in
  (IE1 s' = IE1 s /\ watchdogFunctionToCall s' = watchdogFunctionToCall s)
  \/ (exists c d f,
        o = StartWatchdogTimer c d f
        /\ IE1 s' = uchar (Z.lor (IE1 s) WDTIE)
        /\ watchdogFunctionToCall s'
           = (if NO_WDT_ISR then watchdogFunctionToCall s else f)).
Proof.
  cbv zeta. destruct o as [ | | c d | | | | c d f | | m e | ]; cbn [exec].
  - left. now rewrite detectWatchdog_call.
  - left. now rewrite holdWatchdog_call.
  - left. unfold startWatchdog. split_start; now split.
  - left. now rewrite resetWatchdog_call.
  - left. now rewrite clearWatchdog_call.
  - left. now rewrite holdWatchdogTimer_call.
  - unfold startWatchdogTimer. split_start;
      solve [left; now split
            | right; exists c, d, f; repeat split].
  - left. now rewrite resetWatchdogTimer_call.
  - left. destruct (resetPinMode_call NMI FALLING m e s) as (_ & _ & ->).
    now split.
  - left. unfold watchdog_timer_isr. destruct NO_WDT_ISR; now split.
Qed.

(** X5. No program over the library changes an interrupt enable of IE1
    other than the watchdog's: bits 1 to 7 of IE1 are after the program
    what they were before it. *)
Theorem other_interrupt_enables_are_kept (p : list operation) (s : machine) :
  Z.land (IE1 (run ACLK SMCLK NMI FALLING NO_WDT_ISR p s)) (low_except WDTIE)
  = Z.land (IE1 s) (low_except WDTIE).
Proof.
  revert s. induction p as [| o p IH]; intros s; [reflexivity |].
  change (run ACLK SMCLK NMI FALLING NO_WDT_ISR (o :: p) s)
    with (run ACLK SMCLK NMI FALLING NO_WDT_ISR p
            (exec ACLK SMCLK NMI FALLING NO_WDT_ISR o s)).
  rewrite IH.
  destruct (exec_interrupt_setup o s) as [[-> _] | (c & d & f & _ & -> & _)].
  - reflexivity.
  - now fields.
Qed.

(** X6. No operation of the library masks the watchdog interrupt again:
    once WDTIE is set in IE1 it stays set through every program, the
    hold functions and resetWatchdog included. *)
Theorem watchdog_interrupt_is_never_disabled
  (p : list operation) (s : machine) :
  Z.land (IE1 s) WDTIE = WDTIE ->
  Z.land (IE1 (run ACLK SMCLK NMI FALLING NO_WDT_ISR p s)) WDTIE = WDTIE.
Proof.
  intros Hs.
  apply (run_keeps (fun s => Z.land (IE1 s) WDTIE = WDTIE) (fun _ => true));
    [| apply forallb_forall; reflexivity | exact Hs].
  clear. intros o s _ Hs.
  destruct (exec_interrupt_setup o s) as [[-> _] | (c & d & f & _ & -> & _)].
  - exact Hs.
  - now fields.
Qed.

(** X7. Only startWatchdogTimer touches the interrupt setup: a program
    without a call of it leaves all of IE1 and the callback slot as they
    were.  In particular the slot is never cleared, whatever is held,
    cleared or reset afterwards. *)
Theorem interrupt_setup_changed_only_by_timer_start
  (p : list operation) (s : machine) :
  forallb (fun o => negb (is_timer_start o)) p = true ->
  IE1 (run ACLK SMCLK NMI FALLING NO_WDT_ISR p s) = IE1 s
  /\ watchdogFunctionToCall (run ACLK SMCLK NMI FALLING NO_WDT_ISR p s)
     = watchdogFunctionToCall s.
Proof.
  intros Hp.
  apply (run_keeps
           (fun s' => IE1 s' = IE1 s
                      /\ watchdogFunctionToCall s' = watchdogFunctionToCall s)
           (fun o => negb (is_timer_start o)));
    [| exact Hp | now split].
  clear. intros o s1 Ho [H1 H2].
  destruct (exec_interrupt_setup o s1)
    as [[E1 E2] | (c & d & f & -> & _)].
  - rewrite E1, E2. now split.
  - discriminate Ho.
Qed.


(** Where the content of the callback slot comes from. *)
Lemma callback_origin (p : list operation) (s : machine) :
  let s' := run ACLK SMCLK NMI FALLING NO_WDT_ISR p s in
  watchdogFunctionToCall s' = watchdogFunctionToCall s
  \/ exists c d f,
       In (StartWatchdogTimer c d f) p /\ watchdogFunctionToCall s' = f.
Proof.
  cbv zeta. induction p as [| o p IH] using rev_ind; [now left |].
  rewrite run_snoc.
  destruct (exec_interrupt_setup o
              (run ACLK SMCLK NMI FALLING NO_WDT_ISR p s))
    as [[_ E] | (c & d & f & -> & _ & E)].
  - rewrite E. destruct IH as [IH | (c & d & f & Hin & IH)].
    + now left.
    + right. exists c, d, f. split; [apply in_or_app; now left | exact IH].
  - destruct NO_WDT_ISR.
    + rewrite E. destruct IH as [IH | (c' & d' & f' & Hin & IH)].
      * now left.
      * right. exists c', d', f'.
        split; [apply in_or_app; now left | exact IH].
    + right. exists c, d, f.
      split; [apply in_or_app; right; now left | exact E].
Qed.

(** X8. With the interrupt routine compiled in, the library never leaves
    the watchdog interrupt enabled without a handler handed to it: if
    WDTIE was clear before a program and is set after it, the callback
    slot holds a function passed to a startWatchdogTimer of that
    program, and that function is what the interrupt routine calls. *)
Theorem enabled_interrupt_has_a_callback (p : list operation) (s : machine) :
  NO_WDT_ISR = false ->
  Z.land (IE1 s) WDTIE = 0 ->
  let s' := run ACLK SMCLK NMI FALLING NO_WDT_ISR p s in
  Z.land (IE1 s') WDTIE = WDTIE ->
  exists c d f,
    In (StartWatchdogTimer c d f) p
    /\ watchdogFunctionToCall s' = f
    /\ call (watchdog_timer_isr NO_WDT_ISR) s' = (tt, called f s').
Proof.
  intros Hisr Hs. cbv zeta.
  enough (H : Z.land (IE1 (run ACLK SMCLK NMI FALLING NO_WDT_ISR p s)) WDTIE
              = WDTIE ->
              exists c d f,
                In (StartWatchdogTimer c d f) p
                /\ watchdogFunctionToCall
                     (run ACLK SMCLK NMI FALLING NO_WDT_ISR p s) = f).
  { intros Hen. destruct (H Hen) as (c & d & f & Hin & Hf).
    exists c, d, f. split; [exact Hin | split; [exact Hf |]].
    rewrite <- Hf.
    generalize (run ACLK SMCLK NMI FALLING NO_WDT_ISR p s). intros s1.
    unfold watchdog_timer_isr. now rewrite Hisr. }
  induction p as [| o p IH] using rev_ind.
  - cbn. intros Hen. rewrite Hs in Hen. discriminate Hen.
  - rewrite run_snoc.
    destruct (exec_interrupt_setup o
                (run ACLK SMCLK NMI FALLING NO_WDT_ISR p s))
      as [[E1 E2] | (c & d & f & -> & _ & E)].
    + rewrite E1, E2. intros Hen.
      destruct (IH Hen) as (c & d & f & Hin & Hf).
      exists c, d, f. split; [apply in_or_app; now left | exact Hf].
    + intros _. exists c, d, f.
      split; [apply in_or_app; right; now left |].
      rewrite E. now rewrite Hisr.
Qed.

Lemma calls_app (l1 l2 : list event) :
  calls (l1 ++ l2) = calls l1 ++ calls l2.
Proof. apply flat_map_app. Qed.

(** The calls one operation makes: the interrupt routine, when compiled
    in, calls what the slot holds; nothing else calls anything. *)
Lemma exec_calls (o : operation) (s : machine) :
  calls (bus (exec ACLK SMCLK NMI FALLING NO_WDT_ISR o s))
  = calls (bus s)
    ++ (if is_interrupt o && negb NO_WDT_ISR
        then [watchdogFunctionToCall s] else []).
Proof.
  destruct o as [ | | c d | | | | c d f | | m e | ];
    cbn [exec is_interrupt andb]; rewrite ?app_nil_r.
  - rewrite detectWatchdog_call. cbn. now rewrite calls_app, app_nil_r.
  - rewrite holdWatchdog_call. cbn. now rewrite calls_app, app_nil_r.
  - unfold startWatchdog. split_start;
      cbn [snd bus set_WDTCTL]; rewrite ?calls_app; cbn [calls flat_map app];
      now rewrite ?app_nil_r.
  - rewrite resetWatchdog_call. cbn. now rewrite calls_app, app_nil_r.
  - rewrite clearWatchdog_call. cbn. now rewrite calls_app, app_nil_r.
  - rewrite holdWatchdogTimer_call. cbn. now rewrite calls_app, app_nil_r.
  - unfold startWatchdogTimer. split_start;
      cbn [snd bus set_WDTCTL set_IE1 set_callback];
      rewrite ?calls_app; cbn [calls flat_map app];
      now rewrite ?app_nil_r.
  - rewrite resetWatchdogTimer_call. cbn. now rewrite calls_app, app_nil_r.
  - destruct (resetPinMode_call NMI FALLING m e s) as (_ & _ & ->).
    cbn [snd bus set_WDTCTL]. rewrite !calls_app. cbn [calls flat_map app].
    now rewrite !app_nil_r.
  - unfold watchdog_timer_isr. destruct NO_WDT_ISR; cbn [negb].
    + cbn. now rewrite app_nil_r.
    + exec_body. cbn [snd bus called]. now rewrite calls_app.
Qed.

(** X9. The library calls the callback once for each watchdog interrupt
    served and never otherwise, and not at all in a build with
    NO_WDT_ISR; each function it calls is what the slot held before the
    program or a callback passed to a startWatchdogTimer of the
    program. *)
Theorem callback_is_called_once_per_interrupt
  (p : list operation) (s : machine) :
  exists cs,
    calls (bus (run ACLK SMCLK NMI FALLING NO_WDT_ISR p s))
    = calls (bus s) ++ cs
    /\ length cs
       = (if NO_WDT_ISR then 0 else length (filter is_interrupt p))%nat
    /\ Forall (fun g =>
                 g = watchdogFunctionToCall s
                 \/ exists c d f,
                      In (StartWatchdogTimer c d f) p /\ g = f) cs.
Proof.
  induction p as [| o p IH] using rev_ind.
  - exists []. cbn. rewrite app_nil_r.
    repeat split; [now destruct NO_WDT_ISR | constructor].
  - destruct IH as (cs & Hcs & Hlen & Hall).
    rewrite run_snoc, exec_calls, Hcs, <- app_assoc.
    eexists. split; [reflexivity | split].
    + rewrite length_app, Hlen, filter_app, length_app.
      cbn [filter]. destruct o, NO_WDT_ISR; reflexivity.
    + apply Forall_app. split.
      * eapply Forall_impl; [| exact Hall].
        intros g [Hg | (c & d & f & Hin & Hg)]; [now left |].
        right. exists c, d, f. split; [apply in_or_app; now left | exact Hg].
      * destruct (is_interrupt o && negb NO_WDT_ISR); [| constructor].
        constructor; [| constructor].
        destruct (callback_origin p s) as [Hg | (c & d & f & Hin & Hg)];
          [now left |].
        right. exists c, d, f. split; [apply in_or_app; now left | exact Hg].
Qed.

(** ** The hold bit *)

Lemma exec_keeps_hold (o : operation) (s : machine) :
  negb (may_release_hold o) = true ->
  Z.land (WDTCTL s) WDTHOLD = WDTHOLD ->
  Z.land (WDTCTL (exec ACLK SMCLK NMI FALLING NO_WDT_ISR o s)) WDTHOLD
  = WDTHOLD.
Proof.
  intros Ho Hs.
  destruct o as [ | | c d | | | | c d f | | m e | ];
    try discriminate Ho; cbn [exec].
  - rewrite detectWatchdog_call. cbn [snd WDTCTL set_WDTCTL]. now fields.
  - rewrite holdWatchdog_call. cbn [snd WDTCTL set_WDTCTL]. now fields.
  - unfold startWatchdog. split_start; reflexivity.
  - rewrite clearWatchdog_call. cbn [snd WDTCTL set_WDTCTL]. now fields.
  - rewrite holdWatchdogTimer_call. cbn [snd WDTCTL set_WDTCTL]. now fields.
  - rewrite resetWatchdogTimer_call. cbn [snd WDTCTL set_WDTCTL].
    now fields.
  - destruct (resetPinMode_call NMI FALLING m e s) as (_ & _ & ->).
    cbn [snd WDTCTL set_WDTCTL].
    destruct (m =? NMI), (e =? FALLING); now fields.
Qed.

(** X11. Of the functions of the library only resetWatchdog and
    startWatchdogTimer can set a held watchdog going: through a program
    of calls with neither of them, and with no watchdog interrupt served
    in between (what the callback does is not the library's), the hold
    bit stays set.  startWatchdog is no exception: whatever it answers,
    it leaves the hold bit set. *)
Theorem held_watchdog_stays_held (p : list operation) (s : machine) :
  forallb (fun o => negb (may_release_hold o)) p = true ->
  Z.land (WDTCTL s) WDTHOLD = WDTHOLD ->
  Z.land (WDTCTL (run ACLK SMCLK NMI FALLING NO_WDT_ISR p s)) WDTHOLD
  = WDTHOLD.
Proof.
  intros Hp Hs.
  apply (run_keeps (fun s => Z.land (WDTCTL s) WDTHOLD = WDTHOLD)
           (fun o => negb (may_release_hold o)));
    [apply exec_keeps_hold | exact Hp | exact Hs].
Qed.

(** ** The writes of a start *)

(** X15. Every call of a start function first stops the watchdog: the
    opening write of password plus hold bit is the first event of the
    call.  A call that answers 0 writes WDTCTL exactly once more, as its
    last event, and a call that answers anything else writes nothing
    more.  This holds for startWatchdog and startWatchdogTimer alike. *)
Theorem start_writes_hold_first_and_commits_last
  (c d : Z) (f : funptr) (s : machine) :
  let shape (r : Z) (s' : machine) :=
    exists rest,
      continues s (Write_WDTCTL (WDTPW + WDTHOLD) :: rest) s'
      /\ (r <> 0 -> rest = [])
      /\ (r = 0 ->
          exists before,
            rest = before ++ [Write_WDTCTL (WDTCTL s')]
            /\ wdtctl_writes before = []) in
  shape (fst (call (startWatchdog ACLK SMCLK c d) s))
        (snd (call (startWatchdog ACLK SMCLK c d) s))
  /\ shape (fst (call (startWatchdogTimer ACLK SMCLK NO_WDT_ISR c d f) s))
           (snd (call (startWatchdogTimer ACLK SMCLK NO_WDT_ISR c d f) s)).
Proof.
  cbv zeta. split.
  - unfold startWatchdog. split_start; cbn [fst snd WDTCTL set_WDTCTL];
      (eexists; split;
       [unfold continues; cbn [bus set_WDTCTL]; rewrite <- ?app_assoc;
        reflexivity |]);
      (split; [intros H; solve [reflexivity | now contradiction H] |]);
      intros H; try discriminate H;
      exists []; now split.
  - unfold startWatchdogTimer. split_start;
      cbn [fst snd WDTCTL set_WDTCTL];
      (eexists; split;
       [unfold continues; cbn [bus set_WDTCTL set_IE1 set_callback];
        rewrite <- ?app_assoc; reflexivity |]);
      (split; [intros H; solve [reflexivity | now contradiction H] |]);
      intros H; try discriminate H;
      match goal with
      | |- exists before, ?l = _ /\ _ => exists (removelast l)
      end; now split.
Qed.

(** X16. The two start functions encode the clock source and the divider
    alike: when they answer 0, the values they commit agree on the
    clock-source-select bit, the interval field and the count-clear
    bit, and on both NMI bits.  They differ in that startWatchdog
    commits the hold bit and startWatchdogTimer the timer-mode-select
    bit. *)
Theorem start_functions_encode_alike
  (c d : Z) (f : funptr) (s1 s2 : machine) :
  fst (call (startWatchdog ACLK SMCLK c d) s1) = 0 ->
  let w := WDTCTL (snd (call (startWatchdog ACLK SMCLK c d) s1)) in
  let t := WDTCTL (snd (call (startWatchdogTimer ACLK SMCLK NO_WDT_ISR
                                 c d f) s2)) in
  Z.land w (low_except (Z.lor WDTHOLD WDTTMSEL))
  = Z.land t (low_except (Z.lor WDTHOLD WDTTMSEL))
  /\ Z.land w (Z.lor WDTHOLD WDTTMSEL) = WDTHOLD
  /\ Z.land t (Z.lor WDTHOLD WDTTMSEL) = WDTTMSEL.
Proof.
  cbv zeta. unfold startWatchdog, startWatchdogTimer.
  split_start; cbn [fst snd WDTCTL set_WDTCTL]; intros H;
    try discriminate H; repeat split.
Qed.

End Coverage.

(** ** Further statements at concrete inputs *)

(** An interval-timer start on ACLK with divider 64 commits 0x5A1F; 1 and
    2 stand for ACLK and SMCLK. *)
Lemma startWatchdogTimer_committed_value_witness :
  fst (call (startWatchdogTimer 1 2 false 1 64 0xC000) power_up) = 0
  /\ (let v := WDTCTL (snd (call (startWatchdogTimer 1 2 false 1 64 0xC000)
                             power_up)) in
      Z.land v WDTHOLD = 0
      /\ Z.land v WDTCNTCL = WDTCNTCL
      /\ Z.land v (Z.lor WDTNMI WDTNMIES) = 0
      /\ (Z.land v WDTSSEL = WDTSSEL <-> 1 = 1)
      /\ In (64, Z.land v WDTIS)
           [(64, WDTIS_3); (512, WDTIS_2); (8912, WDTIS_1);
            (32768, WDTIS_0)]).
Proof.
  assert (H : fst (call (startWatchdogTimer 1 2 false 1 64 0xC000) power_up)
              = 0) by reflexivity.
  split.
  - exact H.
  - exact (startWatchdogTimer_committed_value 1 2 false 1 64 0xC000
             power_up H).
Defined.

(** A start refused for its clock source, from a register that was
    configured as a running interval timer with the NMI pin mode. *)
Lemma failed_start_leaves_watchdog_held_witness :
  fst (call (startWatchdog 1 2 3 64) (mkMachine 0x5A7F 1 0xC000 [])) <> 0
  /\ regs (snd (call (startWatchdog 1 2 3 64)
                  (mkMachine 0x5A7F 1 0xC000 [])))
     = (0x5A80, 1, 0xC000)
  /\ regs (snd (call (startWatchdogTimer 1 2 false 3 64 0xD000)
                  (mkMachine 0x5A7F 1 0xC000 [])))
     = (0x5A80, 1, 0xC000).
Proof.
  assert (H : fst (call (startWatchdog 1 2 3 64)
                     (mkMachine 0x5A7F 1 0xC000 [])) <> 0)
    by (vm_compute; discriminate).
  destruct (failed_start_leaves_watchdog_held 1 2 false 3 64 0xD000
              (mkMachine 0x5A7F 1 0xC000 []) H) as (H1 & H2 & _).
  split; [exact H | split; [exact H1 | exact H2]].
Defined.

(** Holding the timer and resetting the watchdog with the interrupt
    enabled. *)
Lemma watchdog_interrupt_is_never_disabled_witness :
  Z.land (IE1 (mkMachine 0x5A1F 1 0xC000 [])) WDTIE = WDTIE
  /\ Z.land (IE1 (run 1 2 1 1 false [HoldWatchdogTimer; ResetWatchdog]
                    (mkMachine 0x5A1F 1 0xC000 []))) WDTIE = WDTIE.
Proof.
  assert (H : Z.land (IE1 (mkMachine 0x5A1F 1 0xC000 [])) WDTIE = WDTIE)
    by reflexivity.
  split.
  - exact H.
  - exact (watchdog_interrupt_is_never_disabled 1 2 1 1 false
             [HoldWatchdogTimer; ResetWatchdog]
             (mkMachine 0x5A1F 1 0xC000 []) H).
Defined.

(** A program that stops the timer, pets and resets the watchdog and
    serves an interrupt. *)
Lemma interrupt_setup_changed_only_by_timer_start_witness :
  forallb (fun o => negb (is_timer_start o))
    [HoldWatchdog; ClearWatchdog; ResetWatchdog; WatchdogTimerIsr] = true
  /\ IE1 (run 1 2 1 1 false
            [HoldWatchdog; ClearWatchdog; ResetWatchdog; WatchdogTimerIsr]
            (mkMachine 0x5A1F 1 0xC000 [])) = 1
  /\ watchdogFunctionToCall
       (run 1 2 1 1 false
          [HoldWatchdog; ClearWatchdog; ResetWatchdog; WatchdogTimerIsr]
          (mkMachine 0x5A1F 1 0xC000 [])) = 0xC000.
Proof.
  assert (H : forallb (fun o => negb (is_timer_start o))
                [HoldWatchdog; ClearWatchdog; ResetWatchdog;
                 WatchdogTimerIsr] = true) by reflexivity.
  split.
  - exact H.
  - exact (interrupt_setup_changed_only_by_timer_start 1 2 1 1 false
             [HoldWatchdog; ClearWatchdog; ResetWatchdog; WatchdogTimerIsr]
             (mkMachine 0x5A1F 1 0xC000 []) H).
Defined.

(** Starting the interval timer from power-up and holding it. *)
Lemma enabled_interrupt_has_a_callback_witness :
  Z.land (IE1 power_up) WDTIE = 0
  /\ Z.land (IE1 (run 1 2 1 1 false
                    [StartWatchdogTimer 1 64 0xC000; HoldWatchdogTimer]
                    power_up)) WDTIE = WDTIE
  /\ exists c d f,
       In (StartWatchdogTimer c d f)
          [StartWatchdogTimer 1 64 0xC000; HoldWatchdogTimer]
       /\ watchdogFunctionToCall
            (run 1 2 1 1 false
               [StartWatchdogTimer 1 64 0xC000; HoldWatchdogTimer]
               power_up) = f
       /\ call (watchdog_timer_isr false)
            (run 1 2 1 1 false
               [StartWatchdogTimer 1 64 0xC000; HoldWatchdogTimer]
               power_up)
          = (tt, called f
                   (run 1 2 1 1 false
                      [StartWatchdogTimer 1 64 0xC000; HoldWatchdogTimer]
                      power_up)).
Proof.
  assert (H0 : Z.land (IE1 power_up) WDTIE = 0) by reflexivity.
  assert (H1 : Z.land (IE1 (run 1 2 1 1 false
                              [StartWatchdogTimer 1 64 0xC000;
                               HoldWatchdogTimer] power_up)) WDTIE = WDTIE)
    by reflexivity.
  split; [exact H0 | split; [exact H1 |]].
  exact (enabled_interrupt_has_a_callback 1 2 1 1 false
           [StartWatchdogTimer 1 64 0xC000; HoldWatchdogTimer]
           power_up eq_refl H0 H1).
Defined.

(** A held watchdog through a watchdog start, a pet and a pin mode
    change. *)
Lemma held_watchdog_stays_held_witness :
  forallb (fun o => negb (may_release_hold o))
    [StartWatchdog 1 64; ClearWatchdog; ResetPinMode 1 1] = true
  /\ Z.land (WDTCTL (mkMachine 0x5A80 0 0 [])) WDTHOLD = WDTHOLD
  /\ Z.land (WDTCTL (run 1 2 1 1 false
                       [StartWatchdog 1 64; ClearWatchdog; ResetPinMode 1 1]
                       (mkMachine 0x5A80 0 0 []))) WDTHOLD = WDTHOLD.
Proof.
  assert (Hp : forallb (fun o => negb (may_release_hold o))
                 [StartWatchdog 1 64; ClearWatchdog; ResetPinMode 1 1]
               = true) by reflexivity.
  assert (Hs : Z.land (WDTCTL (mkMachine 0x5A80 0 0 [])) WDTHOLD = WDTHOLD)
    by reflexivity.
  split; [exact Hp | split; [exact Hs |]].
  exact (held_watchdog_stays_held 1 2 1 1 false
           [StartWatchdog 1 64; ClearWatchdog; ResetPinMode 1 1]
           (mkMachine 0x5A80 0 0 []) Hp Hs).
Defined.

(** A watchdog start on SMCLK with divider 512, beside the timer start
    with the same arguments. *)
Lemma start_functions_encode_alike_witness :
  fst (call (startWatchdog 1 2 2 512) power_up) = 0
  /\ WDTCTL (snd (call (startWatchdog 1 2 2 512) power_up)) = 0x5A8A
  /\ WDTCTL (snd (call (startWatchdogTimer 1 2 false 2 512 0xC000)
                    power_up)) = 0x5A1A
  /\ Z.land 0x5A8A (low_except (Z.lor WDTHOLD WDTTMSEL))
     = Z.land 0x5A1A (low_except (Z.lor WDTHOLD WDTTMSEL)).
Proof.
  assert (H : fst (call (startWatchdog 1 2 2 512) power_up) = 0)
    by reflexivity.
  destruct (start_functions_encode_alike 1 2 false 2 512 0xC000
              power_up power_up H) as (H1 & _ & _).
  split; [exact H | split; [reflexivity | split; [reflexivity | exact H1]]].
Defined.
